(** * Migration status component (src/components/molecules/Migration/index.tsx)

    A shallow embedding of the React component [Migration]: the resolver
    [getMessageAndActionForLiquidityProvider], its two message helpers, and
    the body of the [useEffect] hook that decides visibility, scans the pool
    share owners and stores the resolved title, message and action.

    The component is TypeScript; the parts of the JavaScript runtime it
    relies on (IEEE-754 numbers, [Number], [isNaN], [parseInt], the
    relational operators, number-to-string conversion in template literals,
    truthiness) are embedded first, in module [JS]. *)

From Stdlib Require Import ZArith List String Ascii Bool Lia.
From Stdlib Require Import SpecFloat DecimalString.
Import ListNotations.

Local Open Scope string_scope.

(* ===================================================================== *)
(** ** The JavaScript runtime the component uses *)
(* ===================================================================== *)

Module JS.

(** JavaScript numbers are binary64 floating-point values. *)
Definition number : Type := spec_float.

Definition prec : Z := 53.
Definition emax : Z := 1024.

Definition NaN : number := S754_nan.
Definition zero : number := S754_zero false.

(** The number value of an integer (round to nearest, ties to even). *)
Definition of_Z (z : Z) : number := binary_normalize prec emax z 0 false.

(** The number value of [m * 10^e], for a mantissa [0 <= m], carrying the
    sign [neg]: the exact quotient is rounded once. *)
Definition of_decimal (neg : bool) (m e : Z) : number :=
  if (m =? 0)%Z then S754_zero neg
  else
    let n := if (0 <=? e)%Z then (m * 10 ^ e)%Z else m in
    let d := if (0 <=? e)%Z then 1%Z else (10 ^ (- e))%Z in
    let '(q, e', l) := SFdiv_core_binary prec emax n 0 d 0 in
    binary_round_aux prec emax neg q e' l.

(** *** Lexical helpers *)

(** The value of [c] as a digit of the given radix, if it is one. *)
Definition digit_of (radix : Z) (c : ascii) : option Z :=
  let n := Z.of_nat (nat_of_ascii c) in
  let v :=
    if ((48 <=? n) && (n <=? 57))%Z then Some (n - 48)%Z
    else if ((97 <=? n) && (n <=? 122))%Z then Some (n - 87)%Z
    else if ((65 <=? n) && (n <=? 90))%Z then Some (n - 55)%Z
    else None in
  match v with
  | Some d => if (d <? radix)%Z then Some d else None
  | None => None
  end.

(** Reads the longest run of digits at the head of [s]: the value read on
    top of [acc], the number of digits read on top of [cnt], and the rest. *)
Fixpoint digits (radix : Z) (s : string) (acc cnt : Z) : Z * Z * string :=
  match s with
  | String c s' =>
      match digit_of radix c with
      | Some d => digits radix s' (acc * radix + d)%Z (cnt + 1)%Z
      | None => (acc, cnt, s)
      end
  | EmptyString => (acc, cnt, s)
  end.

(** Strings are sequences of bytes (UTF-8).  [skip_ws] drops the leading
    WhiteSpace and LineTerminator characters: TAB, LF, VT, FF, CR, SP, and
    the encodings of U+00A0, U+1680, U+2000..U+200A, U+2028, U+2029,
    U+202F, U+205F, U+3000 and U+FEFF. *)
Fixpoint skip_ws (s : string) : string :=
  match s with
  | String c s1 =>
      let n := nat_of_ascii c in
      if ((9 <=? n) && (n <=? 13) || (n =? 32))%nat then skip_ws s1
      else
        match s1 with
        | String c1 s2 =>
            let n1 := nat_of_ascii c1 in
            if ((n =? 194) && (n1 =? 160))%nat then skip_ws s2
            else
              match s2 with
              | String c2 s3 =>
                  let n2 := nat_of_ascii c2 in
                  if ((n =? 225) && (n1 =? 154) && (n2 =? 128)
                      || (n =? 226) && (n1 =? 128)
                         && ((128 <=? n2) && (n2 <=? 138)
                             || (n2 =? 168) || (n2 =? 169) || (n2 =? 175))
                      || (n =? 226) && (n1 =? 129) && (n2 =? 159)
                      || (n =? 227) && (n1 =? 128) && (n2 =? 128)
                      || (n =? 239) && (n1 =? 187) && (n2 =? 191))%nat
                  then skip_ws s3
                  else s
              | EmptyString => s
              end
        | EmptyString => s
        end
  | EmptyString => s
  end.

Definition all_ws (s : string) : bool :=
  match skip_ws s with
  | EmptyString => true
  | String _ _ => false
  end.

(** [strip_prefix p s] is the rest of [s] after its prefix [p]. *)
Fixpoint strip_prefix (p s : string) : option string :=
  match p, s with
  | EmptyString, _ => Some s
  | String a p', String b s' =>
      if Ascii.eqb a b then strip_prefix p' s' else None
  | String _ _, EmptyString => None
  end.

(** An optional sign: whether it is [-], and the rest. *)
Definition sign (s : string) : bool * string :=
  match s with
  | String "-" r => (true, r)
  | String "+" r => (false, r)
  | _ => (false, s)
  end.

(** *** [Number(string)]: StringToNumber *)

(** ExponentPart, when one is present and well-formed; otherwise nothing
    is consumed. *)
Definition exponent_part (s : string) : Z * string :=
  match s with
  | String c s1 =>
      if (Ascii.eqb c "e" || Ascii.eqb c "E")%bool then
        let '(neg, s2) := sign s1 in
        let '(v, cnt, rest) := digits 10 s2 0 0 in
        if (cnt =? 0)%Z then (0%Z, s)
        else ((if neg then - v else v)%Z, rest)
      else (0%Z, s)
  | EmptyString => (0%Z, s)
  end.

(** StrUnsignedDecimalLiteral: [Infinity], [D+ . D* E?], [. D+ E?], [D+ E?]. *)
Definition unsigned_decimal (neg : bool) (s : string)
  : option (number * string) :=
  match strip_prefix "Infinity" s with
  | Some rest => Some (S754_infinity neg, rest)
  | None =>
      let '(i, ci, s1) := digits 10 s 0 0 in
      let '(m, cf, s2) :=
        match s1 with
        | String "." t => digits 10 t i 0
        | _ => (i, 0%Z, s1)
        end in
      if (ci + cf =? 0)%Z then None
      else
        let '(e, rest) := exponent_part s2 in
        Some (of_decimal neg m (e - cf), rest)
  end.

(** NonDecimalIntegerLiteral: [0x], [0o], [0b] and their upper-case forms. *)
Definition non_decimal (s : string) : option (Z * string) :=
  match s with
  | String "0" (String c r) =>
      if (Ascii.eqb c "x" || Ascii.eqb c "X")%bool then Some (16%Z, r)
      else if (Ascii.eqb c "o" || Ascii.eqb c "O")%bool then Some (8%Z, r)
      else if (Ascii.eqb c "b" || Ascii.eqb c "B")%bool then Some (2%Z, r)
      else None
  | _ => None
  end.

Definition Number (s : string) : number :=
  let t := skip_ws s in
  match t with
  | EmptyString => zero
  | String _ _ =>
      match non_decimal t with
      | Some (radix, r) =>
          let '(v, cnt, rest) := digits radix r 0 0 in
          if ((0 <? cnt)%Z && all_ws rest)%bool then of_Z v else NaN
      | None =>
          let '(neg, u) := sign t in
          match unsigned_decimal neg u with
          | Some (x, rest) => if all_ws rest then x else NaN
          | None => NaN
          end
      end
  end.

(** *** [parseInt(string)] with no radix argument *)

Definition parseInt (s : string) : number :=
  let '(neg, u) := sign (skip_ws s) in
  let '(radix, v) :=
    match u with
    | String "0" (String c r) =>
        if (Ascii.eqb c "x" || Ascii.eqb c "X")%bool then (16%Z, r)
        else (10%Z, u)
    | _ => (10%Z, u)
    end in
  let '(m, cnt, _) := digits radix v 0 0 in
  if (cnt =? 0)%Z then NaN
  else if (m =? 0)%Z then S754_zero neg
  else of_Z (if neg then - m else m).

(** *** Operators *)

Definition isNaN (x : number) : bool :=
  match x with
  | S754_nan => true
  | _ => false
  end.

(** [x > y] and [x <= y]; both are false when an operand is NaN. *)
Definition gt (x y : number) : bool := SFltb y x.
Definition le (x y : number) : bool := SFleb x y.

(** [x - y] *)
Definition sub (x y : number) : number := SFsub prec emax x y.

(** *** Number-to-string conversion, as a template literal performs it *)

Definition Z_to_string (z : Z) : string := NilZero.string_of_int (Z.to_int z).

Fixpoint zeros (n : nat) : string :=
  match n with
  | O => EmptyString
  | S n' => String "0" (zeros n')
  end.

(** [floor (num / den * 10^j)] for [0 < den]. *)
Definition scaled_floor (num den j : Z) : Z :=
  if (0 <=? j)%Z then (num * 10 ^ j / den)%Z
  else (num / (den * 10 ^ (- j)))%Z.

(** The least [j >= from] at which [num / den * 10^j] reaches 1. *)
Fixpoint first_significant (fuel : nat) (num den from : Z) : Z :=
  match fuel with
  | O => from
  | S fuel' =>
      if (1 <=? scaled_floor num den from)%Z then from
      else first_significant fuel' num den (from + 1)%Z
  end.

(** The [n] with [10^(n-1) <= num / den < 10^n], for a positive binary64
    value [num / den]. *)
Definition decimal_exponent (num den : Z) : Z :=
  if (den <=? num)%Z
  then Z.of_nat (String.length (Z_to_string (num / den)))
  else (1 - first_significant 400 num den 1)%Z.

(** The [k]-digit decimals next to [x = num / den] that convert back to
    [x]; of two, the one closer to [x].  The result is [(s, n)] with [x]
    the number value of [s * 10^(n - k)]. *)
Definition candidate (x : number) (num den n0 k : Z) : option (Z * Z) :=
  let j := (k - n0)%Z in
  let lo := scaled_floor num den j in
  let hi := (lo + 1)%Z in
  let back z := SFeqb (of_decimal false z (- j)) x in
  let lo_closer :=
    if (0 <=? j)%Z then (2 * num * 10 ^ j <=? (lo + hi) * den)%Z
    else (2 * num <=? (lo + hi) * den * 10 ^ (- j))%Z in
  let pick :=
    match back lo, back hi with
    | true, true => Some (if lo_closer then lo else hi)
    | true, false => Some lo
    | false, true => Some hi
    | false, false => None
    end in
  match pick with
  | Some s =>
      if (s =? 10 ^ k)%Z then Some (10 ^ (k - 1), n0 + 1)%Z
      else Some (s, n0)
  | None => None
  end.

(** The shortest digit string: the first [k] that has a candidate. *)
Fixpoint shortest (fuel : nat) (x : number) (num den n0 k : Z)
  : Z * Z * Z :=
  match fuel with
  | O => (scaled_floor num den (k - n0), k, n0)
  | S fuel' =>
      match candidate x num den n0 k with
      | Some (s, n) => (s, k, n)
      | None => shortest fuel' x num den n0 (k + 1)%Z
      end
  end.

(** Lays out the [k] digits [ds] of a value with decimal exponent [n]. *)
Definition layout (ds : string) (k n : Z) : string :=
  if ((k <=? n) && (n <=? 21))%Z then ds ++ zeros (Z.to_nat (n - k))
  else if ((0 <? n) && (n <=? 21))%Z then
    substring 0 (Z.to_nat n) ds ++ "." ++
    substring (Z.to_nat n) (Z.to_nat (k - n)) ds
  else if ((-6 <? n) && (n <=? 0))%Z then
    "0." ++ zeros (Z.to_nat (- n)) ++ ds
  else
    let e := (n - 1)%Z in
    let es := (if (0 <=? e)%Z then "+" else "-") ++ Z_to_string (Z.abs e) in
    if (k =? 1)%Z then ds ++ "e" ++ es
    else substring 0 1 ds ++ "." ++ substring 1 (Z.to_nat (k - 1)) ds
         ++ "e" ++ es.

Definition ToString (x : number) : string :=
  match x with
  | S754_nan => "NaN"
  | S754_zero _ => "0"
  | S754_infinity s => if s then "-Infinity" else "Infinity"
  | S754_finite s m e =>
      let num := if (0 <=? e)%Z then (Zpos m * 2 ^ e)%Z else Zpos m in
      let den := if (0 <=? e)%Z then 1%Z else (2 ^ (- e))%Z in
      let n0 := decimal_exponent num den in
      let '(d, k, n) :=
        shortest 17 (S754_finite false m e) num den n0 1 in
      (if s then "-" else EmptyString) ++ layout (Z_to_string d) k n
  end.

(** Truthiness of a string value that may be null or undefined. *)
Definition truthy (s : option string) : bool :=
  match s with
  | Some EmptyString => false
  | Some (String _ _) => true
  | None => false
  end.

(** [s || d] for a string value that may be null or undefined. *)
Definition or_else (s : option string) (d : string) : string :=
  match s with
  | Some (String c r) => String c r
  | _ => d
  end.

End JS.

(* ===================================================================== *)
(** ** Data of the component *)
(* ===================================================================== *)

(** Modelled from the spec: the enum [MigrationStatus] is declared in
    providers/Migration, which is not among the sources; the component
    names its members [COMPLETED] and [NOT_STARTED], and section 3 of the
    specification lists the phases [NOT_STARTED | STARTED | COMPLETED]. *)
Module MigrationStatus.
Inductive t : Set := NOT_STARTED | STARTED | COMPLETED.

  (** [a === b] *)
Definition eqb (a b : t) : bool :=
    match a, b with
    | NOT_STARTED, NOT_STARTED => true
    | STARTED, STARTED => true
    | COMPLETED, COMPLETED => true
    | _, _ => false
    end.
End MigrationStatus.

Module MigrationAction.
Inductive t : Set :=
  | NONE
  | START_MIGRATION
  | COMPLETE_MIGRATION
  | CANCEL_MIGRATION
  | LOCK_SHARES
  | REMOVE_SHARES
  | VIEW_V4_ASSET.

Definition eqb (a b : t) : bool :=
    match a, b with
    | NONE, NONE => true
    | START_MIGRATION, START_MIGRATION => true
    | COMPLETE_MIGRATION, COMPLETE_MIGRATION => true
    | CANCEL_MIGRATION, CANCEL_MIGRATION => true
    | LOCK_SHARES, LOCK_SHARES => true
    | REMOVE_SHARES, REMOVE_SHARES => true
    | VIEW_V4_ASSET, VIEW_V4_ASSET => true
    | _, _ => false
    end.
End MigrationAction.

(** The content of migration.json, as the static query returns it. *)
Module Entry.
Record t : Set := { title : string; text : string }.
End Entry.

Record LiquidityProvider : Set := {
  migrationNotStarted : Entry.t;
  migrationStarted : Entry.t;
  poolSharesLocked : Entry.t;
  deadlineMetThresholdMet : Entry.t;
  migrationComplete : Entry.t
}.

Record Content : Set := { liquidityProvider : LiquidityProvider }.

(** The values in scope of the component body: [accountId] and [block] from
    [useWeb3()], the rest from [useMigrationStatus()].  A value that may be
    null or undefined is an [option]. *)
Record Facts : Type := {
  accountId : option string;
  block : JS.number;
  status : MigrationStatus.t;
  thresholdMet : bool;
  deadlinePassed : bool;
  poolShares : string;
  poolShareOwners : option (list string);
  lockedSharesV3 : option string;
  deadline : string;
  canAddShares : bool
}.

(** What the resolver returns. *)
Module Result.
Record t : Set := {
    title : string;
    message : string;
    action : MigrationAction.t
  }.
End Result.

(** The [useState] slots of the component. *)
Module State.
Record t : Set := {
    message : option string;
    title : option string;
    showMigration : bool;
    action : option MigrationAction.t;
    sharesLocked : option bool
  }.

  (** The initial values given to [useState]. *)
Definition initial : t :=
    {| message := None; title := None; showMigration := false;
       action := None; sharesLocked := None |}.
End State.

Definition setMessage (v : string) (st : State.t) : State.t :=
  {| State.message := Some v; State.title := State.title st;
     State.showMigration := State.showMigration st;
     State.action := State.action st;
     State.sharesLocked := State.sharesLocked st |}.

Definition setTitle (v : string) (st : State.t) : State.t :=
  {| State.message := State.message st; State.title := Some v;
     State.showMigration := State.showMigration st;
     State.action := State.action st;
     State.sharesLocked := State.sharesLocked st |}.

Definition setShowMigration (v : bool) (st : State.t) : State.t :=
  {| State.message := State.message st; State.title := State.title st;
     State.showMigration := v;
     State.action := State.action st;
     State.sharesLocked := State.sharesLocked st |}.

Definition setAction (v : MigrationAction.t) (st : State.t) : State.t :=
  {| State.message := State.message st; State.title := State.title st;
     State.showMigration := State.showMigration st;
     State.action := Some v;
     State.sharesLocked := State.sharesLocked st |}.

Definition setSharesLocked (v : bool) (st : State.t) : State.t :=
  {| State.message := State.message st; State.title := State.title st;
     State.showMigration := State.showMigration st;
     State.action := State.action st;
     State.sharesLocked := Some v |}.

(** [a === b] for a string that may be null or undefined against a string. *)
Definition strict_eq (a : option string) (b : string) : bool :=
  match a with
  | Some s => String.eqb s b
  | None => false
  end.

(** The line feed of the template literals. *)
Definition nl : string := String "010" EmptyString.

(* ===================================================================== *)
(** ** The component *)
(* ===================================================================== *)

Section Migration.

(** [Web3.utils.fromWei] belongs to the web3 library, not to this
    repository: it is a parameter of the development. *)
Variable fromWei : string -> string.

(** The content of the static query. *)
Variable content : Content.

(** [getLockedSharesMessage]: [poolShares] is the string in scope of the
    component body. *)
Definition getLockedSharesMessage (f : Facts) : string :=
  nl ++ nl ++ "You have " ++ poolShares f ++ " pool shares" ++ nl ++ nl
  ++ "You have locked " ++ fromWei (JS.or_else (lockedSharesV3 f) "0")
  ++ " shares ".

Definition getRemainingBlocksMessage (f : Facts) : string :=
  nl ++ nl ++ JS.ToString (JS.sub (JS.parseInt (deadline f)) (block f))
  ++ " blocks left for migration deadline".

(** The resolver.  Its four parameters shadow the values of the same name
    in [f]; [canAddShares] and what the two helpers read are taken from the
    component scope [f]. *)
Definition getMessageAndActionForLiquidityProvider (f : Facts)
    (status : MigrationStatus.t) (thresholdMet deadlinePassed : bool)
    (_poolShares : string) : Result.t :=
  let poolShares :=
    if JS.isNaN (JS.Number _poolShares) then JS.zero
    else JS.Number _poolShares in
  let liquidityProviderContent := liquidityProvider content in
  if MigrationStatus.eqb status MigrationStatus.COMPLETED then
    let e := migrationComplete liquidityProviderContent in
    {| Result.title := Entry.title e;
       Result.message := Entry.text e;
       Result.action := MigrationAction.NONE |}
  else if MigrationStatus.eqb status MigrationStatus.NOT_STARTED then
    let e := migrationNotStarted liquidityProviderContent in
    {| Result.title := Entry.title e;
       Result.message := Entry.text e;
       Result.action := MigrationAction.NONE |}
  else if negb (MigrationStatus.eqb status MigrationStatus.NOT_STARTED)
          && negb deadlinePassed
          && JS.gt poolShares JS.zero
          && canAddShares f then
    let e := migrationStarted liquidityProviderContent in
    {| Result.title := Entry.title e;
       Result.message :=
         Entry.text e ++ getLockedSharesMessage f
         ++ getRemainingBlocksMessage f;
       Result.action := MigrationAction.LOCK_SHARES |}
  else if negb (MigrationStatus.eqb status MigrationStatus.NOT_STARTED)
          && negb deadlinePassed
          && JS.le poolShares JS.zero then
    let e := poolSharesLocked liquidityProviderContent in
    {| Result.title := Entry.title e;
       Result.message :=
         Entry.text e ++ getLockedSharesMessage f
         ++ getRemainingBlocksMessage f;
       Result.action := MigrationAction.LOCK_SHARES |}
  else if negb (MigrationStatus.eqb status MigrationStatus.NOT_STARTED)
          && (deadlinePassed || thresholdMet)
          && negb (canAddShares f) then
    let e := deadlineMetThresholdMet liquidityProviderContent in
    {| Result.title := Entry.title e;
       Result.message := Entry.text e ++ getLockedSharesMessage f;
       Result.action := MigrationAction.NONE |}
  else
    {| Result.title := "No migration information available";
       Result.message := EmptyString;
       Result.action := MigrationAction.NONE |}.

Definition setTitleMessageAction (title message : string)
    (action : MigrationAction.t) (st : State.t) : State.t :=
  setAction action (setMessage message (setTitle title st)).

Definition switchMessageAndAction (f : Facts)
    (status : MigrationStatus.t) (thresholdMet deadlinePassed : bool)
    (poolShares : string) (st : State.t) : State.t :=
  let r :=
    getMessageAndActionForLiquidityProvider f status thresholdMet
      deadlinePassed poolShares in
  setTitleMessageAction (Result.title r) (Result.message r)
    (Result.action r) st.

(** The loop over [poolShareOwners]. *)
Fixpoint scanPoolShareOwners (accountId : option string)
    (owners : list string) (st : State.t) : State.t :=
  match owners with
  | [] => st
  | owner :: rest =>
      scanPoolShareOwners accountId rest
        (if strict_eq accountId owner then setSharesLocked true st else st)
  end.

(** The test that guards [setShowMigration(true)]. *)
Definition visibilityCheck (f : Facts) : bool :=
  let poolSharesNumber :=
    if JS.isNaN (JS.Number (poolShares f)) then JS.zero
    else JS.Number (poolShares f) in
  JS.gt poolSharesNumber JS.zero
  || (JS.truthy (lockedSharesV3 f)
      && negb (strict_eq (lockedSharesV3 f) "0")).

(** The body of the [useEffect] hook, run on the state [st] with the
    values [f] in scope. *)
Definition useEffect (f : Facts) (st : State.t) : State.t :=
  if negb (JS.truthy (accountId f)) then st
  else
    let st1 := if visibilityCheck f then setShowMigration true st else st in
    let st2 :=
      match poolShareOwners f with
      | Some owners => scanPoolShareOwners (accountId f) owners st1
      | None => st1
      end in
    switchMessageAndAction f (status f) (thresholdMet f) (deadlinePassed f)
      (poolShares f) st2.

(** The hook run on each of a sequence of successive values in scope. *)
Definition reevaluate (fs : list Facts) (st : State.t) : State.t :=
  fold_left (fun s f => useEffect f s) fs st.

(** The resolver on the arguments the hook passes to it. *)
Definition resolve (f : Facts) : Result.t :=
  getMessageAndActionForLiquidityProvider f (status f) (thresholdMet f)
    (deadlinePassed f) (poolShares f).

(** What the component returns: nothing unless [showMigration]; otherwise
    the alert's title and text, and whether [LockShares] is rendered. *)
Record View : Set := {
  alertTitle : option string;
  alertText : option string;
  lockShares : bool
}.

Definition render (st : State.t) : option View :=
  if State.showMigration st then
    Some {| alertTitle := State.title st;
            alertText := State.message st;
            lockShares :=
              match State.action st with
              | Some a => MigrationAction.eqb a MigrationAction.LOCK_SHARES
              | None => false
              end |}
  else None.

End Migration.

(* ===================================================================== *)
(** ** Concrete data for evaluating the component *)
(* ===================================================================== *)

Module Sample.

(** Drops the trailing zeros of [z], at most [fuel] of them. *)
Fixpoint drop_zeros (fuel : nat) (z : Z) : Z * nat :=
  match fuel with
  | O => (z, O)
  | S fuel' =>
      if ((z mod 10 =? 0) && negb (z =? 0))%Z then
        let '(z', n) := drop_zeros fuel' (z / 10)%Z in (z', S n)
      else (z, O)
  end.

(** An instance of the unit conversion on strings of decimal digits: the
    amount divided by [10^18], its fraction written without trailing
    zeros.  Other strings are outside its domain and are left as they
    are. *)
Definition fromWei (s : string) : string :=
  let '(v, cnt, rest) := JS.digits 10 s 0 0 in
  match rest with
  | EmptyString =>
      if (cnt =? 0)%Z then s
      else
        let whole := JS.Z_to_string (v / 10 ^ 18) in
        let '(fr, dropped) := drop_zeros 18 (v mod 10 ^ 18) in
        if (fr =? 0)%Z then whole
        else
          let ds := JS.Z_to_string fr in
          whole ++ "." ++ JS.zeros (18 - dropped - String.length ds) ++ ds
  | String _ _ => s
  end.

Definition content : Content :=
  {| liquidityProvider :=
       {| migrationNotStarted :=
            {| Entry.title := "Migration has not started";
               Entry.text := "The migration of this pool has not started." |};
          migrationStarted :=
            {| Entry.title := "Migration started";
               Entry.text := "Lock your pool shares to take part." |};
          poolSharesLocked :=
            {| Entry.title := "Pool shares locked";
               Entry.text := "Your pool shares are locked." |};
          deadlineMetThresholdMet :=
            {| Entry.title := "Migration can be completed";
               Entry.text := "The deadline or the threshold is met." |};
          migrationComplete :=
            {| Entry.title := "Migration complete";
               Entry.text := "This pool has been migrated." |} |} |}.

(** A participant in a started migration at block 150, deadline 100. *)
Definition facts (poolShares : string) (lockedSharesV3 : option string)
    (deadlinePassed thresholdMet canAddShares : bool) : Facts :=
  {| accountId := Some "0xA";
     block := JS.of_Z 150;
     status := MigrationStatus.STARTED;
     thresholdMet := thresholdMet;
     deadlinePassed := deadlinePassed;
     poolShares := poolShares;
     poolShareOwners := Some ["0xB"; "0xA"; "0xA"];
     lockedSharesV3 := lockedSharesV3;
     deadline := "100";
     canAddShares := canAddShares |}.

End Sample.

(* ===================================================================== *)
(** ** Properties *)
(* ===================================================================== *)

(** The numerically coerced pool shares, as the resolver and the hook
    compute them: 0 in place of NaN. *)
Definition coerced (s : string) : JS.number :=
  if JS.isNaN (JS.Number s) then JS.zero else JS.Number s.

(** The facts [f] with another [poolShares], everything else the same. *)
Definition withPoolShares (s : string) (f : Facts) : Facts :=
  {| accountId := accountId f;
     block := block f;
     status := status f;
     thresholdMet := thresholdMet f;
     deadlinePassed := deadlinePassed f;
     poolShares := s;
     poolShareOwners := poolShareOwners f;
     lockedSharesV3 := lockedSharesV3 f;
     deadline := deadline f;
     canAddShares := canAddShares f |}.

(** The facts [f] with other [poolShareOwners], everything else the same. *)
Definition withPoolShareOwners (o : option (list string)) (f : Facts) : Facts :=
  {| accountId := accountId f;
     block := block f;
     status := status f;
     thresholdMet := thresholdMet f;
     deadlinePassed := deadlinePassed f;
     poolShares := poolShares f;
     poolShareOwners := o;
     lockedSharesV3 := lockedSharesV3 f;
     deadline := deadline f;
     canAddShares := canAddShares f |}.

(** A deadline that does not start with a decimal digit (after white space
    and a sign). *)
Definition non_numeric (s : string) : bool :=
  match snd (JS.sign (JS.skip_ws s)) with
  | EmptyString => true
  | String c _ =>
      match JS.digit_of 10 c with
      | Some _ => false
      | None => true
      end
  end.

(** The facts [f] with another [deadline], everything else the same. *)
Definition withDeadline (s : string) (f : Facts) : Facts :=
  {| accountId := accountId f;
     block := block f;
     status := status f;
     thresholdMet := thresholdMet f;
     deadlinePassed := deadlinePassed f;
     poolShares := poolShares f;
     poolShareOwners := poolShareOwners f;
     lockedSharesV3 := lockedSharesV3 f;
     deadline := s;
     canAddShares := canAddShares f |}.

(** The facts [f] with another [accountId], everything else the same. *)
Definition withAccountId (a : option string) (f : Facts) : Facts :=
  {| accountId := a;
     block := block f;
     status := status f;
     thresholdMet := thresholdMet f;
     deadlinePassed := deadlinePassed f;
     poolShares := poolShares f;
     poolShareOwners := poolShareOwners f;
     lockedSharesV3 := lockedSharesV3 f;
     deadline := deadline f;
     canAddShares := canAddShares f |}.

(** The result of the resolver when no rule matches. *)
Definition noInformation : Result.t :=
  {| Result.title := "No migration information available";
     Result.message := EmptyString;
     Result.action := MigrationAction.NONE |}.

(** Whether the loop over [poolShareOwners] finds the participant: some
    element is [===] to [accountId]; no list, no match. *)
Definition participates (f : Facts) : bool :=
  match poolShareOwners f with
  | Some owners => existsb (strict_eq (accountId f)) owners
  | None => false
  end.

(** Whether a run of the hook on [f] passes the guard and the visibility
    test. *)
Definition passesGate (f : Facts) : bool :=
  JS.truthy (accountId f) && visibilityCheck f.

(** A string of decimal digits only. *)
Fixpoint all_decimal (s : string) : bool :=
  match s with
  | EmptyString => true
  | String c r =>
      match JS.digit_of 10 c with
      | Some _ => all_decimal r
      | None => false
      end
  end.

(** A character that ends the integer [parseInt] reads: no decimal digit,
    and not the [x] of a hexadecimal prefix. *)
Definition ends_integer (c : ascii) : bool :=
  match JS.digit_of 10 c with
  | Some _ => false
  | None => negb (Ascii.eqb c "x" || Ascii.eqb c "X")
  end.

(** A number that is neither NaN nor an infinity. *)
Definition finite_number (x : JS.number) : bool :=
  match x with
  | S754_zero _ | S754_finite _ _ _ => true
  | S754_infinity _ | S754_nan => false
  end.

(** *** Numbers *)

Lemma coerced_not_NaN (s : string) : JS.isNaN (coerced s) = false.
Proof.
  unfold coerced.
  destruct (JS.isNaN (JS.Number s)) eqn:E; [reflexivity | exact E].
Qed.

(** On a number that is not NaN, [<= 0] is the negation of [> 0]. *)
Lemma le_zero_not_gt (x : JS.number) :
  JS.isNaN x = false -> JS.le x JS.zero = negb (JS.gt x JS.zero).
Proof.
  destruct x as [s | s | | s m e]; simpl; intro H;
    try discriminate; try (destruct s; reflexivity).
Qed.

Lemma coerced_le_or_gt (s : string) :
  JS.le (coerced s) JS.zero = negb (JS.gt (coerced s) JS.zero).
Proof. apply le_zero_not_gt, coerced_not_NaN. Qed.

Lemma Number_not_a_number : JS.Number "not-a-number" = JS.NaN.
Proof. reflexivity. Qed.


Lemma coerced_abc : coerced "abc" = JS.zero.
Proof. reflexivity. Qed.


(** The conversions on the strings of the specification's examples. *)
Example Number_examples :
  JS.ToString (JS.Number "5") = "5" /\
  JS.ToString (JS.Number " 12.50 ") = "12.5" /\
  JS.ToString (JS.Number "0x1f") = "31" /\
  JS.ToString (JS.Number "1e21") = "1e+21" /\
  JS.Number EmptyString = JS.zero /\
  JS.Number "abc" = JS.NaN /\
  JS.Number "12px" = JS.NaN.
Proof. vm_compute. repeat split. Qed.

Example parseInt_examples :
  JS.ToString (JS.parseInt "100") = "100" /\
  JS.ToString (JS.parseInt "12px") = "12" /\
  JS.ToString (JS.parseInt " -0x10") = "-16" /\
  JS.parseInt "abc" = JS.NaN /\
  JS.parseInt EmptyString = JS.NaN.
Proof. vm_compute. repeat split. Qed.

(** Deadline 100 at block 150: the count is negative and not clamped. *)
Example remaining_blocks_negative :
  getRemainingBlocksMessage (Sample.facts "5" None false false true)
  = nl ++ nl ++ "-50 blocks left for migration deadline".
Proof. vm_compute. reflexivity. Qed.

(** Locked shares are shown in units of [10^18]; absent ones as 0. *)
Example locked_shares_suffix :
  getLockedSharesMessage Sample.fromWei
    (Sample.facts "5" (Some "1500000000000000000") false false true)
  = nl ++ nl ++ "You have 5 pool shares" ++ nl ++ nl
    ++ "You have locked 1.5 shares " /\
  getLockedSharesMessage Sample.fromWei
    (Sample.facts "5" None false false true)
  = nl ++ nl ++ "You have 5 pool shares" ++ nl ++ nl
    ++ "You have locked 0 shares ".
Proof. vm_compute. split; reflexivity. Qed.

(** Case analysis on every test of a conditional in the goal. *)
Ltac split_ifs :=
  repeat match goal with
         | |- context [if ?c then _ else _] => destruct c
         end.

(** *** The resolver, rule by rule *)

Section Resolver.

Variable fromWei : string -> string.
Variable content : Content.

Local Abbreviation resolver := (getMessageAndActionForLiquidityProvider fromWei content).
Local Abbreviation lp := (liquidityProvider content).

(** The resolver only reads its fourth argument through [coerced]. *)
Lemma resolver_coerced f st tm dp s1 s2 :
  coerced s1 = coerced s2 -> resolver f st tm dp s1 = resolver f st tm dp s2.
Proof.
  intro H. unfold getMessageAndActionForLiquidityProvider.
  fold (coerced s1). fold (coerced s2). rewrite H. reflexivity.
Qed.

Lemma rule_complete f tm dp s :
  resolver f MigrationStatus.COMPLETED tm dp s =
  {| Result.title := Entry.title (migrationComplete lp);
     Result.message := Entry.text (migrationComplete lp);
     Result.action := MigrationAction.NONE |}.
Proof. reflexivity. Qed.

Lemma rule_not_started f tm dp s :
  resolver f MigrationStatus.NOT_STARTED tm dp s =
  {| Result.title := Entry.title (migrationNotStarted lp);
     Result.message := Entry.text (migrationNotStarted lp);
     Result.action := MigrationAction.NONE |}.
Proof. reflexivity. Qed.


Lemma rule_started_no_shares f tm s :
  JS.gt (coerced s) JS.zero = false ->
  resolver f MigrationStatus.STARTED tm false s =
  {| Result.title := Entry.title (poolSharesLocked lp);
     Result.message :=
       Entry.text (poolSharesLocked lp) ++ getLockedSharesMessage fromWei f
       ++ getRemainingBlocksMessage f;
     Result.action := MigrationAction.LOCK_SHARES |}.
Proof.
  intros Hgt. unfold getMessageAndActionForLiquidityProvider.
  fold (coerced s). rewrite coerced_le_or_gt, Hgt. reflexivity.
Qed.

Lemma rule_started_closed f tm dp s :
  (dp = false -> JS.gt (coerced s) JS.zero = true) ->
  (dp || tm) = true -> canAddShares f = false ->
  resolver f MigrationStatus.STARTED tm dp s =
  {| Result.title := Entry.title (deadlineMetThresholdMet lp);
     Result.message :=
       Entry.text (deadlineMetThresholdMet lp)
       ++ getLockedSharesMessage fromWei f;
     Result.action := MigrationAction.NONE |}.
Proof.
  intros Hgt Hor Hcan. unfold getMessageAndActionForLiquidityProvider.
  fold (coerced s). rewrite coerced_le_or_gt, Hcan, Hor.
  destruct dp; simpl; [reflexivity |].
  rewrite (Hgt eq_refl). reflexivity.
Qed.

Lemma rule_fallback f tm dp s :
  (dp = false -> JS.gt (coerced s) JS.zero = true) ->
  (if canAddShares f then dp else negb (dp || tm)) = true ->
  resolver f MigrationStatus.STARTED tm dp s =
  {| Result.title := "No migration information available";
     Result.message := EmptyString;
     Result.action := MigrationAction.NONE |}.
Proof.
  intros Hgt H. unfold getMessageAndActionForLiquidityProvider.
  fold (coerced s). rewrite coerced_le_or_gt.
  destruct (canAddShares f), dp, tm; simpl in *; try discriminate;
    try reflexivity; rewrite (Hgt eq_refl); reflexivity.
Qed.

(** When the resolver answers [LOCK_SHARES]. *)
Lemma lock_shares_iff f st tm dp s :
  Result.action (resolver f st tm dp s) = MigrationAction.LOCK_SHARES <->
  st = MigrationStatus.STARTED /\ dp = false /\
  (canAddShares f = true \/ JS.le (coerced s) JS.zero = true).
Proof.
  unfold getMessageAndActionForLiquidityProvider. fold (coerced s).
  rewrite coerced_le_or_gt.
  destruct st, dp, (canAddShares f), (JS.gt (coerced s) JS.zero), tm;
    simpl; split; intro H; try discriminate; try reflexivity;
    try (repeat split; auto; fail);
    try (destruct H as (H1 & H2 & [H3 | H3]); discriminate).
Qed.

End Resolver.

(** *** The state after the hook *)

Section Hook.

Variable fromWei : string -> string.
Variable content : Content.

Lemma scan_showMigration acc owners st :
  State.showMigration (scanPoolShareOwners acc owners st)
  = State.showMigration st.
Proof.
  revert st. induction owners as [| o rest IH]; intro st; simpl.
  - reflexivity.
  - rewrite IH. destruct (strict_eq acc o); reflexivity.
Qed.

Lemma scan_sharesLocked acc owners st :
  State.sharesLocked (scanPoolShareOwners acc owners st) = Some true <->
  State.sharesLocked st = Some true
  \/ exists o, In o owners /\ strict_eq acc o = true.
Proof.
  revert st. induction owners as [| o rest IH]; intro st; simpl.
  - split; [auto | intros [H | (o & [] & _)]; exact H].
  - rewrite IH. destruct (strict_eq acc o) eqn:E; simpl.
    + split; [| reflexivity || auto].
      intros _. right. exists o. auto.
    + split.
      * intros [H | (o' & Hin & Ho')]; [auto |].
        right. exists o'. auto.
      * intros [H | (o' & [Heq | Hin] & Ho')]; [auto | |].
        -- subst o'. congruence.
        -- right. exists o'. auto.
Qed.

Lemma switch_showMigration f st tm dp s state :
  State.showMigration (switchMessageAndAction fromWei content f st tm dp s state)
  = State.showMigration state.
Proof. reflexivity. Qed.

Lemma switch_sharesLocked f st tm dp s state :
  State.sharesLocked (switchMessageAndAction fromWei content f st tm dp s state)
  = State.sharesLocked state.
Proof. reflexivity. Qed.

(** With a participant and a list of owners, the hook run on the initial
    state leaves [sharesLocked] true exactly for a member. *)
Lemma useEffect_sharesLocked f a owners :
  accountId f = Some a -> a <> EmptyString ->
  poolShareOwners f = Some owners ->
  (State.sharesLocked (useEffect fromWei content f State.initial) = Some true
   <-> In a owners).
Proof.
  intros Ha Hne Ho. unfold useEffect. rewrite Ha, Ho.
  destruct a as [| c r]; [congruence |]. cbn [JS.truthy negb].
  rewrite switch_sharesLocked, scan_sharesLocked.
  assert (E : State.sharesLocked
                (if visibilityCheck f
                 then setShowMigration true State.initial
                 else State.initial) = None)
    by (destruct (visibilityCheck f); reflexivity).
  rewrite E. split.
  - intros [H | (o & Hin & Heq)]; [discriminate |].
    apply String.eqb_eq in Heq. subst o. exact Hin.
  - intro Hin. right. exists (String c r). split; [exact Hin |].
    apply String.eqb_refl.
Qed.

(** With a participant, the hook shows the feature exactly when the
    visibility test holds or it was shown already. *)
Lemma useEffect_showMigration f st :
  JS.truthy (accountId f) = true ->
  State.showMigration (useEffect fromWei content f st)
  = visibilityCheck f || State.showMigration st.
Proof.
  intro Hacc. unfold useEffect. rewrite Hacc. cbn [negb].
  rewrite switch_showMigration.
  destruct (poolShareOwners f) as [owners |];
    rewrite ?scan_showMigration;
    destruct (visibilityCheck f); reflexivity.
Qed.

(** Without a participant the hook returns at once. *)
Lemma useEffect_no_account f st :
  JS.truthy (accountId f) = false -> useEffect fromWei content f st = st.
Proof. intro H. unfold useEffect. rewrite H. reflexivity. Qed.

(** The hook never clears [showMigration]. *)
Lemma useEffect_keeps_shown f st :
  State.showMigration st = true ->
  State.showMigration (useEffect fromWei content f st) = true.
Proof.
  intro H. destruct (JS.truthy (accountId f)) eqn:E.
  - rewrite useEffect_showMigration, H by exact E. apply orb_true_r.
  - rewrite useEffect_no_account by exact E. exact H.
Qed.

Lemma reevaluate_keeps_shown fs st :
  State.showMigration st = true ->
  State.showMigration (reevaluate fromWei content fs st) = true.
Proof.
  revert st. induction fs as [| f fs IH]; intros st H; simpl.
  - exact H.
  - apply IH, useEffect_keeps_shown, H.
Qed.

End Hook.

(** The visibility test, spelled out. *)
Lemma visibilityCheck_iff f :
  visibilityCheck f = true <->
  JS.gt (coerced (poolShares f)) JS.zero = true
  \/ exists s, lockedSharesV3 f = Some s /\ s <> EmptyString /\ s <> "0".
Proof.
  unfold visibilityCheck. fold (coerced (poolShares f)).
  rewrite orb_true_iff, andb_true_iff, negb_true_iff.
  split; (intros [H | H]; [left; exact H | right]).
  - destruct H as [Ht Hz].
    destruct (lockedSharesV3 f) as [[| c r] |]; try discriminate.
    exists (String c r). repeat split; [discriminate |].
    intro E. rewrite E in Hz. discriminate.
  - destruct H as (s & -> & Hne & Hz). split.
    + destruct s; [congruence | reflexivity].
    + simpl. apply String.eqb_neq, Hz.
Qed.

Lemma parseInt_non_numeric (s : string) :
  non_numeric s = true -> JS.parseInt s = JS.NaN.
Proof.
  unfold non_numeric, JS.parseInt.
  destruct (JS.sign (JS.skip_ws s)) as [neg u]. simpl.
  destruct u as [| c r]; [reflexivity |].
  destruct (JS.digit_of 10 c) eqn:E; [discriminate | intros _].
  assert (Hz : c <> "0"%char) by (intros ->; discriminate).
  assert (Hu : (match String c r with
                | String "0" (String c0 r0) =>
                    if (Ascii.eqb c0 "x" || Ascii.eqb c0 "X")%bool
                    then (16%Z, r0) else (10%Z, String c r)
                | _ => (10%Z, String c r)
                end) = (10%Z, String c r)).
  { destruct c as [[] [] [] [] [] [] [] []]; try reflexivity.
    exfalso. apply Hz. reflexivity. }
  rewrite Hu. simpl. rewrite E. reflexivity.
Qed.

(* ===================================================================== *)
(** ** The claims *)
(* ===================================================================== *)

(** Rule 4 offers the lock action although no new lock is accepted. *)
Lemma lock_shares_without_canAddShares :
  canAddShares (Sample.facts "0" None false false false) = false /\
  Result.action
    (resolve Sample.fromWei Sample.content
       (Sample.facts "0" None false false false))
  = MigrationAction.LOCK_SHARES.
Proof. split; reflexivity. Qed.

(** C1 (amended).  The resolver answers [LOCK_SHARES] only when the phase
    is not [NOT_STARTED], the deadline has not passed, and either
    [canAddShares] is true or the coerced pool shares are [<= 0]; so no
    input with the deadline passed yields [LOCK_SHARES]. *)
Theorem lock_shares_only_when fromWei content f st tm dp s :
  Result.action (getMessageAndActionForLiquidityProvider fromWei content
                   f st tm dp s) = MigrationAction.LOCK_SHARES ->
  st <> MigrationStatus.NOT_STARTED /\ dp = false /\
  (canAddShares f = true \/ JS.le (coerced s) JS.zero = true).
Proof.
  intro H. apply lock_shares_iff in H. destruct H as (-> & -> & H).
  repeat split; [discriminate | exact H].
Qed.

Lemma lock_shares_only_when_witness :
  Result.action
    (getMessageAndActionForLiquidityProvider Sample.fromWei Sample.content
       (Sample.facts "0" None false false false)
       MigrationStatus.STARTED false false "0")
  = MigrationAction.LOCK_SHARES /\
  (MigrationStatus.STARTED <> MigrationStatus.NOT_STARTED /\ false = false /\
   (canAddShares (Sample.facts "0" None false false false) = true
    \/ JS.le (coerced "0") JS.zero = true)).
Proof.
  split; [reflexivity |].
  apply (lock_shares_only_when Sample.fromWei Sample.content
           (Sample.facts "0" None false false false)
           MigrationStatus.STARTED false false "0").
  reflexivity.
Defined.

(** With a participant, an empty [lockedSharesV3] hides the feature
    although it is neither null nor ["0"]; without a participant, five
    pool shares do not show it. *)
Lemma gate_false_on_empty_locked_and_on_no_participant :
  (let f := Sample.facts "0" (Some EmptyString) false false true in
   lockedSharesV3 f <> None /\ lockedSharesV3 f <> Some "0" /\
   State.showMigration
     (useEffect Sample.fromWei Sample.content f State.initial) = false) /\
  (let f := withAccountId None (Sample.facts "5" None false false true) in
   JS.gt (coerced (poolShares f)) JS.zero = true /\
   State.showMigration
     (useEffect Sample.fromWei Sample.content f State.initial) = false).
Proof. repeat split; try discriminate; reflexivity. Qed.

(** C2 (amended).  For every snapshot with a participant (an [accountId]
    that is neither null nor empty), the hook run on the initial state
    shows the feature if and only if the coerced pool shares are [> 0] or
    [lockedSharesV3] is non-null, non-empty and not ["0"]; in particular it
    shows it for pool shares ["5"] with null locked shares and for ["0"]
    with ["12"], and does not for ["0"] with null. *)
Theorem visibility_gate fromWei content f :
  JS.truthy (accountId f) = true ->
  (State.showMigration (useEffect fromWei content f State.initial) = true
   <-> JS.gt (coerced (poolShares f)) JS.zero = true
       \/ exists s, lockedSharesV3 f = Some s /\ s <> EmptyString /\ s <> "0") /\
  (poolShares f = "5" -> lockedSharesV3 f = None ->
   State.showMigration (useEffect fromWei content f State.initial) = true) /\
  (poolShares f = "0" -> lockedSharesV3 f = Some "12" ->
   State.showMigration (useEffect fromWei content f State.initial) = true) /\
  (poolShares f = "0" -> lockedSharesV3 f = None ->
   State.showMigration (useEffect fromWei content f State.initial) = false).
Proof.
  intro Hacc. rewrite (useEffect_showMigration _ _ _ _ Hacc).
  cbn [State.showMigration State.initial]. rewrite orb_false_r.
  split; [apply visibilityCheck_iff |].
  unfold visibilityCheck.
  repeat split; intros Hp Hl; rewrite Hp, Hl; reflexivity.
Qed.

Lemma visibility_gate_witness :
  JS.truthy (accountId (Sample.facts "5" None false false true)) = true /\
  State.showMigration
    (useEffect Sample.fromWei Sample.content
       (Sample.facts "5" None false false true) State.initial) = true.
Proof.
  split; [reflexivity |].
  apply (proj1 (proj2 (visibility_gate Sample.fromWei Sample.content
                         (Sample.facts "5" None false false true)
                         eq_refl)));
    reflexivity.
Defined.

(** On the snapshot of the rule-order scenario the resolver gives the
    fallback, not the [migrationStarted] outcome. *)
Lemma fallback_on_rule_order_scenario :
  let f := Sample.facts "3" None true true true in
  resolve Sample.fromWei Sample.content f
  = {| Result.title := "No migration information available";
       Result.message := EmptyString;
       Result.action := MigrationAction.NONE |} /\
  Result.action (resolve Sample.fromWei Sample.content f)
  <> MigrationAction.LOCK_SHARES /\
  Result.title (resolve Sample.fromWei Sample.content f)
  <> Entry.title (migrationStarted (liquidityProvider Sample.content)).
Proof. repeat split; try discriminate; reflexivity. Qed.

(** C3 (amended).  For the snapshot with phase [STARTED], the deadline
    passed, the threshold met, pool shares ["3"] and [canAddShares] true,
    the resolver matches neither rule 3 (which needs the deadline not
    passed) nor rule 5 (which needs [canAddShares] false): it returns the
    fallback, title "No migration information available", empty message,
    action [NONE]. *)
Theorem rule_order_scenario fromWei content f :
  status f = MigrationStatus.STARTED -> deadlinePassed f = true ->
  thresholdMet f = true -> poolShares f = "3" -> canAddShares f = true ->
  resolve fromWei content f
  = {| Result.title := "No migration information available";
       Result.message := EmptyString;
       Result.action := MigrationAction.NONE |}.
Proof.
  intros Hst Hdp Htm Hps Hcan. unfold resolve. rewrite Hst, Hdp.
  apply rule_fallback; [discriminate | rewrite Hcan; reflexivity].
Qed.

Lemma rule_order_scenario_witness :
  let f := Sample.facts "3" None true true true in
  (status f = MigrationStatus.STARTED /\ deadlinePassed f = true /\
   thresholdMet f = true /\ poolShares f = "3" /\ canAddShares f = true) /\
  resolve Sample.fromWei Sample.content f
  = {| Result.title := "No migration information available";
       Result.message := EmptyString;
       Result.action := MigrationAction.NONE |}.
Proof.
  split; [repeat split |].
  apply (rule_order_scenario Sample.fromWei Sample.content
           (Sample.facts "3" None true true true));
    reflexivity.
Defined.



(** C5 (the code at the failing input).  The claim asks that a malformed
    deadline be coerced to 0, so that at block 150 the remaining-blocks
    suffix reads "-150 blocks left for migration deadline", a number and
    never NaN.  The code raises nothing, but for the deadline "abc" at
    block 150 [parseInt] gives NaN and the suffix reads "NaN blocks left
    for migration deadline". *)
Lemma malformed_deadline_renders_NaN :
  let f := withDeadline "abc" (Sample.facts "5" None false false true) in
  JS.parseInt (deadline f) = JS.NaN /\
  getRemainingBlocksMessage f
  = nl ++ nl ++ "NaN blocks left for migration deadline" /\
  getRemainingBlocksMessage f
  <> nl ++ nl ++ "-150 blocks left for migration deadline".
Proof. vm_compute. repeat split. discriminate. Qed.

(** Every deadline that does not start, after white space and a sign,
    with a decimal digit is read as NaN and rendered as such. *)
Lemma malformed_deadline_suffix f :
  non_numeric (deadline f) = true ->
  JS.parseInt (deadline f) = JS.NaN /\
  getRemainingBlocksMessage f
  = nl ++ nl ++ "NaN blocks left for migration deadline".
Proof.
  intro H. apply parseInt_non_numeric in H.
  split; [exact H |].
  unfold getRemainingBlocksMessage. rewrite H. reflexivity.
Qed.

(** C6.  For every snapshot with phase [COMPLETED] and every catalog, the
    resolver returns the [migrationComplete] title, the [migrationComplete]
    text as the message, and action [NONE], whatever [thresholdMet],
    [deadlinePassed], the pool shares, the locked shares and
    [canAddShares] are. *)
Theorem completed_phase fromWei content f tm dp s :
  getMessageAndActionForLiquidityProvider fromWei content f
    MigrationStatus.COMPLETED tm dp s
  = {| Result.title :=
         Entry.title (migrationComplete (liquidityProvider content));
       Result.message :=
         Entry.text (migrationComplete (liquidityProvider content));
       Result.action := MigrationAction.NONE |}.
Proof. apply rule_complete. Qed.



(** The flag is not a function of the current participant and owners:
    after a snapshot whose participant is among its owners it stays true
    for "0xC" with no owners at all; and for an empty participant, which
    the guard of the hook stops, it stays undefined although the owners
    contain the empty string. *)
Lemma sharesLocked_beyond_membership :
  (let member := Sample.facts "5" None false false true in
   let other :=
     withAccountId (Some "0xC") (withPoolShareOwners (Some []) member) in
   ~ In "0xC" (@nil string) /\
   State.sharesLocked
     (reevaluate Sample.fromWei Sample.content [member; other] State.initial)
   = Some true) /\
  (let f :=
     withAccountId (Some EmptyString)
       (withPoolShareOwners (Some [EmptyString])
          (Sample.facts "5" None false false true)) in
   In EmptyString [EmptyString] /\
   State.sharesLocked
     (useEffect Sample.fromWei Sample.content f State.initial)
   = None).
Proof.
  cbv zeta. split; split.
  - intros [].
  - reflexivity.
  - left. reflexivity.
  - reflexivity.
Qed.

(** C8 (amended).  For every participant address that is not empty and
    every sequence of share owners, duplicates permitted, the hook run on
    the initial state leaves [sharesLocked] true if and only if the
    participant occurs in the sequence: it does for "0xA" in
    ["0xB"; "0xA"; "0xA"], and for "0xC" in the empty sequence the flag
    stays undefined.  The flag is never reset: run on any state, the hook
    leaves it true if and only if the participant occurs in the sequence
    or the flag was true before. *)
Theorem sharesLocked_iff_member fromWei content f a owners st :
  accountId f = Some a -> a <> EmptyString ->
  poolShareOwners f = Some owners ->
  (State.sharesLocked (useEffect fromWei content f State.initial) = Some true
   <-> In a owners) /\
  (State.sharesLocked (useEffect fromWei content f st) = Some true
   <-> In a owners \/ State.sharesLocked st = Some true) /\
  (a = "0xA" -> owners = ["0xB"; "0xA"; "0xA"] ->
   State.sharesLocked (useEffect fromWei content f State.initial)
   = Some true) /\
  (a = "0xC" -> owners = [] ->
   State.sharesLocked (useEffect fromWei content f State.initial) = None).
Proof.
  intros Ha Hne Ho.
  assert (Hmem : forall o, In o owners /\ strict_eq (Some a) o = true
                           <-> o = a /\ In a owners).
  { intro o. simpl. rewrite String.eqb_eq. split.
    - intros [Hin <-]. auto.
    - intros [-> Hin]. auto. }
  assert (Hst : forall s0,
             State.sharesLocked (useEffect fromWei content f s0) = Some true
             <-> In a owners \/ State.sharesLocked s0 = Some true).
  { intro s0. unfold useEffect. rewrite Ha, Ho.
    destruct a as [| c r]; [congruence |]. cbn [JS.truthy negb].
    rewrite switch_sharesLocked, scan_sharesLocked.
    assert (E : State.sharesLocked
                  (if visibilityCheck f then setShowMigration true s0 else s0)
                = State.sharesLocked s0)
      by (destruct (visibilityCheck f); reflexivity).
    rewrite E. split.
    - intros [H | (o & H)]; [auto |]. apply Hmem in H. tauto.
    - intros [H | H]; [| auto]. right. exists (String c r).
      apply Hmem. auto. }
  assert (Hinit : State.sharesLocked (useEffect fromWei content f State.initial)
                  = Some true <-> In a owners).
  { rewrite Hst. cbn [State.sharesLocked State.initial]. split.
    - intros [H | H]; [exact H | discriminate].
    - auto. }
  repeat split; try apply Hinit; try apply Hst.
  - intros -> ->. apply Hinit. simpl. auto.
  - intros -> ->. unfold useEffect. rewrite Ha, Ho. cbn [JS.truthy negb].
    rewrite switch_sharesLocked. simpl.
    destruct (visibilityCheck f); reflexivity.
Qed.

Lemma sharesLocked_iff_member_witness :
  (accountId (Sample.facts "5" None false false true) = Some "0xA" /\
   "0xA" <> EmptyString /\
   poolShareOwners (Sample.facts "5" None false false true)
   = Some ["0xB"; "0xA"; "0xA"]) /\
  (State.sharesLocked
     (useEffect Sample.fromWei Sample.content
        (Sample.facts "5" None false false true) State.initial) = Some true
   <-> In "0xA" ["0xB"; "0xA"; "0xA"]).
Proof.
  split; [repeat split; discriminate |].
  apply (proj1 (sharesLocked_iff_member Sample.fromWei Sample.content
                  (Sample.facts "5" None false false true)
                  "0xA" ["0xB"; "0xA"; "0xA"] State.initial
                  eq_refl ltac:(discriminate) eq_refl)).
Defined.

(** C9.  For every snapshot whose participant address is null, the hook
    leaves every state untouched, whatever the pool shares and the locked
    shares are: run on the initial state it computes no title, message or
    action and the component renders nothing. *)
Theorem no_participant_nothing_shown fromWei content f :
  accountId f = None ->
  (forall st, useEffect fromWei content f st = st) /\
  State.showMigration (useEffect fromWei content f State.initial) = false /\
  State.title (useEffect fromWei content f State.initial) = None /\
  State.message (useEffect fromWei content f State.initial) = None /\
  State.action (useEffect fromWei content f State.initial) = None /\
  render (useEffect fromWei content f State.initial) = None.
Proof.
  intro H.
  assert (E : forall st, useEffect fromWei content f st = st).
  { intro st. apply useEffect_no_account. rewrite H. reflexivity. }
  split; [exact E |]. rewrite E. repeat split.
Qed.

Lemma no_participant_nothing_shown_witness :
  accountId (withAccountId None (Sample.facts "5" (Some "12") false false true))
  = None /\
  render
    (useEffect Sample.fromWei Sample.content
       (withAccountId None (Sample.facts "5" (Some "12") false false true))
       State.initial)
  = None.
Proof.
  split; [reflexivity |].
  apply (no_participant_nothing_shown Sample.fromWei Sample.content
           (withAccountId None
              (Sample.facts "5" (Some "12") false false true))
           eq_refl).
Defined.

(** C10.  Across successive runs of the hook the visibility decision is
    monotone: once the visibility test has held for a snapshot with a
    participant, [showMigration] is true after every later snapshot, and
    the component keeps rendering; [showMigration] is only ever set to
    true. *)
Theorem shown_stays_shown fromWei content f later st :
  JS.truthy (accountId f) = true -> visibilityCheck f = true ->
  State.showMigration (reevaluate fromWei content (f :: later) st) = true /\
  render (reevaluate fromWei content (f :: later) st) <> None.
Proof.
  intros Hacc Hvis.
  assert (H : State.showMigration
                (reevaluate fromWei content (f :: later) st) = true).
  { simpl. apply reevaluate_keeps_shown.
    rewrite useEffect_showMigration, Hvis by exact Hacc. reflexivity. }
  split; [exact H |]. unfold render. rewrite H. discriminate.
Qed.

Lemma shown_stays_shown_witness :
  (JS.truthy (accountId (Sample.facts "5" None false false true)) = true /\
   visibilityCheck (Sample.facts "5" None false false true) = true /\
   visibilityCheck (Sample.facts "0" None false false true) = false) /\
  State.showMigration
    (reevaluate Sample.fromWei Sample.content
       [Sample.facts "5" None false false true;
        Sample.facts "0" None false false true]
       State.initial)
  = true.
Proof.
  split; [repeat split |].
  apply (shown_stays_shown Sample.fromWei Sample.content
           (Sample.facts "5" None false false true)
           [Sample.facts "0" None false false true] State.initial);
    reflexivity.
Defined.

(* ===================================================================== *)
(** ** Further properties of the component *)
(* ===================================================================== *)

(** *** Helper facts *)

Lemma le_coerced_gt (s : string) :
  JS.le (coerced s) JS.zero = true -> JS.gt (coerced s) JS.zero = false.
Proof.
  rewrite coerced_le_or_gt. destruct (JS.gt (coerced s) JS.zero);
    [discriminate | reflexivity].
Qed.

Lemma coerced_of_NaN (s : string) :
  JS.isNaN (JS.Number s) = true -> coerced s = coerced "0".
Proof. intro H. unfold coerced at 1. rewrite H. reflexivity. Qed.

(** The loop over the owners as one test. *)
Lemma scan_state acc owners st :
  scanPoolShareOwners acc owners st
  = if existsb (strict_eq acc) owners then setSharesLocked true st else st.
Proof.
  revert st. induction owners as [| o rest IH]; intro st; simpl.
  - reflexivity.
  - rewrite IH. destruct (strict_eq acc o); simpl.
    + destruct (existsb (strict_eq acc) rest); reflexivity.
    + reflexivity.
Qed.

(** The state the hook leaves, for a participant. *)
Lemma useEffect_state fromWei content f st :
  JS.truthy (accountId f) = true ->
  useEffect fromWei content f st
  = {| State.message := Some (Result.message (resolve fromWei content f));
       State.title := Some (Result.title (resolve fromWei content f));
       State.showMigration := visibilityCheck f || State.showMigration st;
       State.action := Some (Result.action (resolve fromWei content f));
       State.sharesLocked :=
         if participates f then Some true else State.sharesLocked st |}.
Proof.
  intro Hacc. unfold useEffect, participates. rewrite Hacc. cbn [negb].
  destruct (poolShareOwners f) as [owners |].
  - rewrite scan_state.
    destruct (existsb (strict_eq (accountId f)) owners),
             (visibilityCheck f); reflexivity.
  - destruct (visibilityCheck f); reflexivity.
Qed.

Lemma useEffect_falsy fromWei content f st :
  JS.truthy (accountId f) = false -> useEffect fromWei content f st = st.
Proof. intro H. unfold useEffect. rewrite H. reflexivity. Qed.

Lemma reevaluate_app fromWei content fs gs st :
  reevaluate fromWei content (fs ++ gs) st
  = reevaluate fromWei content gs (reevaluate fromWei content fs st).
Proof. unfold reevaluate. apply fold_left_app. Qed.

Lemma reevaluate_cons fromWei content f fs st :
  reevaluate fromWei content (f :: fs) st
  = reevaluate fromWei content fs (useEffect fromWei content f st).
Proof. reflexivity. Qed.

(** The resolver as a decision tree over its tests. *)
Lemma resolver_tree fromWei content f st tm dp s :
  getMessageAndActionForLiquidityProvider fromWei content f st tm dp s
  = let lp := liquidityProvider content in
    let both := getLockedSharesMessage fromWei f
                ++ getRemainingBlocksMessage f in
    match st with
    | MigrationStatus.COMPLETED =>
        {| Result.title := Entry.title (migrationComplete lp);
           Result.message := Entry.text (migrationComplete lp);
           Result.action := MigrationAction.NONE |}
    | MigrationStatus.NOT_STARTED =>
        {| Result.title := Entry.title (migrationNotStarted lp);
           Result.message := Entry.text (migrationNotStarted lp);
           Result.action := MigrationAction.NONE |}
    | MigrationStatus.STARTED =>
        if dp then
          if canAddShares f then noInformation
          else
            {| Result.title := Entry.title (deadlineMetThresholdMet lp);
               Result.message :=
                 Entry.text (deadlineMetThresholdMet lp)
                 ++ getLockedSharesMessage fromWei f;
               Result.action := MigrationAction.NONE |}
        else if JS.gt (coerced s) JS.zero then
          if canAddShares f then
            {| Result.title := Entry.title (migrationStarted lp);
               Result.message := Entry.text (migrationStarted lp) ++ both;
               Result.action := MigrationAction.LOCK_SHARES |}
          else if tm then
            {| Result.title := Entry.title (deadlineMetThresholdMet lp);
               Result.message :=
                 Entry.text (deadlineMetThresholdMet lp)
                 ++ getLockedSharesMessage fromWei f;
               Result.action := MigrationAction.NONE |}
          else noInformation
        else
          {| Result.title := Entry.title (poolSharesLocked lp);
             Result.message := Entry.text (poolSharesLocked lp) ++ both;
             Result.action := MigrationAction.LOCK_SHARES |}
    end.
Proof.
  unfold getMessageAndActionForLiquidityProvider. fold (coerced s).
  rewrite coerced_le_or_gt. cbv zeta.
  destruct st, dp, (canAddShares f), (JS.gt (coerced s) JS.zero), tm;
    reflexivity.
Qed.

(** *** The resolver *)

(** X1.  On the arguments the hook passes, the resolver answers
    [LOCK_SHARES] exactly when the phase is [STARTED], the deadline has not
    passed, and [canAddShares] is true or the coerced pool shares are
    [<= 0]. *)
Theorem lock_shares_exactly_when fromWei content f :
  Result.action (resolve fromWei content f) = MigrationAction.LOCK_SHARES <->
  status f = MigrationStatus.STARTED /\ deadlinePassed f = false /\
  (canAddShares f = true \/ JS.le (coerced (poolShares f)) JS.zero = true).
Proof. unfold resolve. apply lock_shares_iff. Qed.

(** X2.  The resolver never answers an action other than [NONE] and
    [LOCK_SHARES]: the five other members of [MigrationAction] are not
    produced on any input. *)
Theorem action_none_or_lock fromWei content f st tm dp s :
  Result.action
    (getMessageAndActionForLiquidityProvider fromWei content f st tm dp s)
  = MigrationAction.NONE
  \/ Result.action
       (getMessageAndActionForLiquidityProvider fromWei content f st tm dp s)
     = MigrationAction.LOCK_SHARES.
Proof.
  rewrite resolver_tree. cbv zeta.
  destruct st; [left; reflexivity | | left; reflexivity].
  split_ifs; (left; reflexivity) || (right; reflexivity).
Qed.

(** X3.  In phase [STARTED] with the deadline not passed and coerced pool
    shares [<= 0] (none, negative, or not a number), the resolver returns
    the [poolSharesLocked] title, its text followed by both suffixes, and
    [LOCK_SHARES], whatever [canAddShares] and [thresholdMet] are. *)
Theorem no_shares_rule fromWei content f :
  status f = MigrationStatus.STARTED -> deadlinePassed f = false ->
  JS.le (coerced (poolShares f)) JS.zero = true ->
  resolve fromWei content f
  = {| Result.title :=
         Entry.title (poolSharesLocked (liquidityProvider content));
       Result.message :=
         Entry.text (poolSharesLocked (liquidityProvider content))
         ++ getLockedSharesMessage fromWei f
         ++ getRemainingBlocksMessage f;
       Result.action := MigrationAction.LOCK_SHARES |}.
Proof.
  intros Hst Hdp Hle. unfold resolve. rewrite Hst, Hdp.
  apply rule_started_no_shares, le_coerced_gt, Hle.
Qed.

Lemma no_shares_rule_witness :
  (status (Sample.facts "-2" None false true false) = MigrationStatus.STARTED /\
   deadlinePassed (Sample.facts "-2" None false true false) = false /\
   JS.le (coerced (poolShares (Sample.facts "-2" None false true false)))
     JS.zero = true) /\
  Result.action
    (resolve Sample.fromWei Sample.content
       (Sample.facts "-2" None false true false))
  = MigrationAction.LOCK_SHARES.
Proof.
  split; [repeat split |].
  rewrite (no_shares_rule Sample.fromWei Sample.content
             (Sample.facts "-2" None false true false)
             eq_refl eq_refl eq_refl).
  reflexivity.
Defined.

(** X4.  Every pool-shares string that [Number] reads as NaN is treated as
    ["0"]: the resolver returns the same result for the two arguments on
    the same component scope, the two snapshots get the same title and
    action, and the visibility test gives the same answer. *)
Theorem unreadable_poolShares_as_zero fromWei content f s :
  JS.isNaN (JS.Number s) = true ->
  (forall g st tm dp,
      getMessageAndActionForLiquidityProvider fromWei content g st tm dp s
      = getMessageAndActionForLiquidityProvider fromWei content g st tm dp
          "0") /\
  Result.title (resolve fromWei content (withPoolShares s f))
  = Result.title (resolve fromWei content (withPoolShares "0" f)) /\
  Result.action (resolve fromWei content (withPoolShares s f))
  = Result.action (resolve fromWei content (withPoolShares "0" f)) /\
  visibilityCheck (withPoolShares s f)
  = visibilityCheck (withPoolShares "0" f).
Proof.
  intro H. pose proof (coerced_of_NaN s H) as E.
  split; [intros g st tm dp; apply resolver_coerced, E |].
  unfold resolve, visibilityCheck.
  cbn [status thresholdMet deadlinePassed poolShares lockedSharesV3
       withPoolShares].
  fold (coerced s). fold (coerced "0").
  rewrite (resolver_coerced fromWei content _ _ _ _ _ _ E), E.
  rewrite !resolver_tree. cbv zeta. cbn [canAddShares withPoolShares].
  repeat split; destruct (status f); try reflexivity; split_ifs; reflexivity.
Qed.

Lemma unreadable_poolShares_as_zero_witness :
  JS.isNaN (JS.Number "12px") = true /\
  visibilityCheck
    (withPoolShares "12px" (Sample.facts "5" None false false true))
  = visibilityCheck
      (withPoolShares "0" (Sample.facts "5" None false false true)).
Proof.
  split; [reflexivity |].
  apply (unreadable_poolShares_as_zero Sample.fromWei Sample.content
           (Sample.facts "5" None false false true) "12px" eq_refl).
Defined.

(** X5.  In phase [STARTED] with [canAddShares] false, once the deadline
    has passed, or the threshold is met while the coerced pool shares are
    [> 0], the resolver returns the [deadlineMetThresholdMet] title, its
    text followed by the locked-shares suffix only, and [NONE]. *)
Theorem closed_rule fromWei content f :
  status f = MigrationStatus.STARTED -> canAddShares f = false ->
  deadlinePassed f = true
  \/ (thresholdMet f = true
      /\ JS.gt (coerced (poolShares f)) JS.zero = true) ->
  resolve fromWei content f
  = {| Result.title :=
         Entry.title (deadlineMetThresholdMet (liquidityProvider content));
       Result.message :=
         Entry.text (deadlineMetThresholdMet (liquidityProvider content))
         ++ getLockedSharesMessage fromWei f;
       Result.action := MigrationAction.NONE |}.
Proof.
  intros Hst Hcan H. unfold resolve. rewrite Hst.
  apply rule_started_closed; [| | exact Hcan].
  - intro Hdp. destruct H as [H | [_ H]]; [congruence | exact H].
  - destruct H as [-> | [-> _]]; [reflexivity | apply orb_true_r].
Qed.

Lemma closed_rule_witness :
  (status (Sample.facts "5" None false true false) = MigrationStatus.STARTED /\
   canAddShares (Sample.facts "5" None false true false) = false /\
   (deadlinePassed (Sample.facts "5" None false true false) = true
    \/ (thresholdMet (Sample.facts "5" None false true false) = true
        /\ JS.gt (coerced (poolShares (Sample.facts "5" None false true false)))
             JS.zero = true))) /\
  Result.title
    (resolve Sample.fromWei Sample.content
       (Sample.facts "5" None false true false))
  = "Migration can be completed".
Proof.
  split; [repeat split; right; split; reflexivity |].
  rewrite (closed_rule Sample.fromWei Sample.content
             (Sample.facts "5" None false true false)
             eq_refl eq_refl (or_intror (conj eq_refl eq_refl))).
  reflexivity.
Defined.

(** X6.  The ordered rules of the resolver amount to this decision table
    on the phase, [deadlinePassed], the sign of the coerced pool shares,
    [canAddShares] and [thresholdMet]; the fallback is reached in exactly
    two gaps of phase [STARTED]: the deadline passed with [canAddShares]
    true, and the deadline not passed with pool shares [> 0],
    [canAddShares] false and the threshold not met. *)
Theorem resolver_decision_table fromWei content f :
  resolve fromWei content f
  = let lp := liquidityProvider content in
    let locked := getLockedSharesMessage fromWei f in
    let both := locked ++ getRemainingBlocksMessage f in
    match status f with
    | MigrationStatus.COMPLETED =>
        {| Result.title := Entry.title (migrationComplete lp);
           Result.message := Entry.text (migrationComplete lp);
           Result.action := MigrationAction.NONE |}
    | MigrationStatus.NOT_STARTED =>
        {| Result.title := Entry.title (migrationNotStarted lp);
           Result.message := Entry.text (migrationNotStarted lp);
           Result.action := MigrationAction.NONE |}
    | MigrationStatus.STARTED =>
        if deadlinePassed f then
          if canAddShares f then noInformation
          else
            {| Result.title := Entry.title (deadlineMetThresholdMet lp);
               Result.message :=
                 Entry.text (deadlineMetThresholdMet lp) ++ locked;
               Result.action := MigrationAction.NONE |}
        else if JS.gt (coerced (poolShares f)) JS.zero then
          if canAddShares f then
            {| Result.title := Entry.title (migrationStarted lp);
               Result.message := Entry.text (migrationStarted lp) ++ both;
               Result.action := MigrationAction.LOCK_SHARES |}
          else if thresholdMet f then
            {| Result.title := Entry.title (deadlineMetThresholdMet lp);
               Result.message :=
                 Entry.text (deadlineMetThresholdMet lp) ++ locked;
               Result.action := MigrationAction.NONE |}
          else noInformation
        else
          {| Result.title := Entry.title (poolSharesLocked lp);
             Result.message := Entry.text (poolSharesLocked lp) ++ both;
             Result.action := MigrationAction.LOCK_SHARES |}
    end.
Proof. unfold resolve. apply resolver_tree. Qed.

(** X7.  The resolver's result depends on [thresholdMet] only in phase
    [STARTED] with [canAddShares] false, the deadline not passed and coerced
    pool shares [> 0]; everywhere else the two values of [thresholdMet]
    give the same title, message and action. *)
Theorem thresholdMet_relevance fromWei content f st dp s tm1 tm2 :
  MigrationStatus.eqb st MigrationStatus.STARTED
  && negb (canAddShares f) && negb dp && JS.gt (coerced s) JS.zero = false ->
  getMessageAndActionForLiquidityProvider fromWei content f st tm1 dp s
  = getMessageAndActionForLiquidityProvider fromWei content f st tm2 dp s.
Proof.
  intro H. rewrite !resolver_tree. cbv zeta.
  destruct st; try reflexivity.
  destruct dp, (canAddShares f), (JS.gt (coerced s) JS.zero);
    try reflexivity; discriminate.
Qed.

Lemma thresholdMet_relevance_witness :
  MigrationStatus.eqb MigrationStatus.STARTED MigrationStatus.STARTED
  && negb (canAddShares (Sample.facts "5" None true false false))
  && negb true && JS.gt (coerced "5") JS.zero = false /\
  getMessageAndActionForLiquidityProvider Sample.fromWei Sample.content
    (Sample.facts "5" None true false false) MigrationStatus.STARTED
    true true "5"
  = getMessageAndActionForLiquidityProvider Sample.fromWei Sample.content
      (Sample.facts "5" None true false false) MigrationStatus.STARTED
      false true "5".
Proof.
  split; [reflexivity |].
  apply (thresholdMet_relevance Sample.fromWei Sample.content
           (Sample.facts "5" None true false false)
           MigrationStatus.STARTED true "5" true false).
  reflexivity.
Defined.

(** *** The hook and the rendering *)

(** X8.  After any sequence of runs of the hook that ends with a snapshot
    with a participant, the stored title, message and action are the
    resolver's result for that last snapshot, whatever was stored before
    and whether or not the feature is shown. *)
Theorem latest_snapshot_presented fromWei content fs f st :
  JS.truthy (accountId f) = true ->
  State.title (reevaluate fromWei content (fs ++ [f]) st)
  = Some (Result.title (resolve fromWei content f)) /\
  State.message (reevaluate fromWei content (fs ++ [f]) st)
  = Some (Result.message (resolve fromWei content f)) /\
  State.action (reevaluate fromWei content (fs ++ [f]) st)
  = Some (Result.action (resolve fromWei content f)).
Proof.
  intro Hacc. rewrite reevaluate_app. simpl.
  rewrite (useEffect_state _ _ _ _ Hacc). repeat split.
Qed.

Lemma latest_snapshot_presented_witness :
  JS.truthy (accountId (Sample.facts "0" None true false false)) = true /\
  State.title
    (reevaluate Sample.fromWei Sample.content
       ([Sample.facts "5" None false false true]
        ++ [Sample.facts "0" None true false false]) State.initial)
  = Some "Migration can be completed".
Proof.
  split; [reflexivity |].
  rewrite (proj1 (latest_snapshot_presented Sample.fromWei Sample.content
                    [Sample.facts "5" None false false true]
                    (Sample.facts "0" None true false false)
                    State.initial eq_refl)).
  reflexivity.
Defined.

(** X9.  The hook is idempotent: run twice on the same values in scope it
    leaves the state of the first run. *)
Theorem useEffect_idempotent fromWei content f st :
  useEffect fromWei content f (useEffect fromWei content f st)
  = useEffect fromWei content f st.
Proof.
  destruct (JS.truthy (accountId f)) eqn:Hacc.
  - rewrite !(useEffect_state _ _ _ _ Hacc).
    cbn [State.showMigration State.sharesLocked].
    destruct (visibilityCheck f), (participates f); reflexivity.
  - rewrite !(useEffect_falsy _ _ _ _ Hacc). reflexivity.
Qed.

(** X10.  [sharesLocked] is only ever set to true.  After a sequence of
    runs it is true if some snapshot had a participant found among its pool
    share owners, and otherwise what it was at the start; a later snapshot
    with another participant, or without one, does not reset it. *)
Theorem sharesLocked_session fromWei content fs st :
  State.sharesLocked (reevaluate fromWei content fs st)
  = if existsb (fun f => JS.truthy (accountId f) && participates f) fs
    then Some true
    else State.sharesLocked st.
Proof.
  revert st. induction fs as [| f fs IH]; intro st.
  - reflexivity.
  - rewrite reevaluate_cons, IH. cbn [existsb].
    destruct (JS.truthy (accountId f)) eqn:Hacc; cbn [andb orb].
    + rewrite (useEffect_state _ _ _ _ Hacc). cbn [State.sharesLocked].
      destruct (participates f); cbn [orb]; [| reflexivity].
      destruct (existsb _ fs); reflexivity.
    + rewrite (useEffect_falsy _ _ _ _ Hacc). reflexivity.
Qed.

(** X11.  [showMigration] after a sequence of runs is true exactly when it
    was true at the start or some snapshot of the sequence had a
    participant and passed the visibility test: the feature is never shown
    without such a snapshot. *)
Theorem showMigration_session fromWei content fs st :
  State.showMigration (reevaluate fromWei content fs st)
  = State.showMigration st || existsb passesGate fs.
Proof.
  revert st. induction fs as [| f fs IH]; intro st.
  - symmetry. apply orb_false_r.
  - rewrite reevaluate_cons, IH. cbn [existsb]. unfold passesGate at 2.
    destruct (JS.truthy (accountId f)) eqn:Hacc; cbn [andb orb].
    + rewrite (useEffect_state _ _ _ _ Hacc). cbn [State.showMigration].
      destruct (visibilityCheck f), (State.showMigration st); reflexivity.
    + rewrite (useEffect_falsy _ _ _ _ Hacc). reflexivity.
Qed.

(** X12.  Whether the hook shows the feature depends only on [accountId],
    [poolShares], [lockedSharesV3] and the flag before the run: not on the
    phase, the threshold, the deadline, the block, [canAddShares] or the
    pool share owners. *)
Theorem visibility_ignores_phase fromWei content f g st :
  accountId f = accountId g -> poolShares f = poolShares g ->
  lockedSharesV3 f = lockedSharesV3 g ->
  State.showMigration (useEffect fromWei content f st)
  = State.showMigration (useEffect fromWei content g st).
Proof.
  intros Ha Hp Hl.
  assert (Hv : visibilityCheck f = visibilityCheck g)
    by (unfold visibilityCheck; rewrite Hp, Hl; reflexivity).
  destruct (JS.truthy (accountId g)) eqn:Hg.
  - rewrite !useEffect_showMigration, Hv by (rewrite ?Ha; exact Hg).
    reflexivity.
  - rewrite !useEffect_falsy by (rewrite ?Ha; exact Hg). reflexivity.
Qed.

Lemma visibility_ignores_phase_witness :
  (accountId (Sample.facts "5" None false false true)
   = accountId (Sample.facts "5" None true true false) /\
   poolShares (Sample.facts "5" None false false true)
   = poolShares (Sample.facts "5" None true true false) /\
   lockedSharesV3 (Sample.facts "5" None false false true)
   = lockedSharesV3 (Sample.facts "5" None true true false)) /\
  State.showMigration
    (useEffect Sample.fromWei Sample.content
       (Sample.facts "5" None false false true) State.initial)
  = State.showMigration
      (useEffect Sample.fromWei Sample.content
         (Sample.facts "5" None true true false) State.initial).
Proof.
  split; [repeat split |].
  apply (visibility_ignores_phase Sample.fromWei Sample.content
           (Sample.facts "5" None false false true)
           (Sample.facts "5" None true true false) State.initial);
    reflexivity.
Defined.

(** X13.  When the visibility test fails, the coerced pool shares are not
    [> 0] and the locked shares are null, empty or ["0"], and these three
    all render alike: the locked-shares suffix, which the hook computes all
    the same, says the conversion of ["0"]. *)
Theorem hidden_means_no_locked fromWei f :
  visibilityCheck f = false ->
  JS.gt (coerced (poolShares f)) JS.zero = false /\
  (lockedSharesV3 f = None \/ lockedSharesV3 f = Some EmptyString
   \/ lockedSharesV3 f = Some "0") /\
  getLockedSharesMessage fromWei f
  = nl ++ nl ++ "You have " ++ poolShares f ++ " pool shares" ++ nl ++ nl
    ++ "You have locked " ++ fromWei "0" ++ " shares ".
Proof.
  unfold visibilityCheck, getLockedSharesMessage.
  fold (coerced (poolShares f)). intro H.
  apply orb_false_iff in H. destruct H as [Hgt Hl].
  split; [exact Hgt |].
  destruct (lockedSharesV3 f) as [[| c r] |];
    cbn [JS.truthy strict_eq JS.or_else andb] in *.
  - split; [auto | reflexivity].
  - apply negb_false_iff, String.eqb_eq in Hl. rewrite Hl.
    split; [auto | reflexivity].
  - split; [auto | reflexivity].
Qed.

Lemma hidden_means_no_locked_witness :
  visibilityCheck (Sample.facts "0" (Some EmptyString) false false true)
  = false /\
  getLockedSharesMessage Sample.fromWei
    (Sample.facts "0" (Some EmptyString) false false true)
  = nl ++ nl ++ "You have 0 pool shares" ++ nl ++ nl
    ++ "You have locked 0 shares ".
Proof.
  split; [reflexivity |].
  rewrite (proj2 (proj2 (hidden_means_no_locked Sample.fromWei
                           (Sample.facts "0" (Some EmptyString)
                              false false true) eq_refl))).
  reflexivity.
Defined.

(** X14.  For a snapshot with a participant, the component rendered after
    the first run of the hook is nothing when the visibility test fails;
    otherwise it is the alert with the resolver's title and message, and
    the [LockShares] control is rendered exactly when the resolver's action
    is [LOCK_SHARES]. *)
Theorem render_after_hook fromWei content f :
  JS.truthy (accountId f) = true ->
  render (useEffect fromWei content f State.initial)
  = if visibilityCheck f then
      Some {| alertTitle := Some (Result.title (resolve fromWei content f));
              alertText := Some (Result.message (resolve fromWei content f));
              lockShares :=
                MigrationAction.eqb
                  (Result.action (resolve fromWei content f))
                  MigrationAction.LOCK_SHARES |}
    else None.
Proof.
  intro Hacc. rewrite (useEffect_state _ _ _ _ Hacc). unfold render.
  cbn [State.showMigration State.title State.message State.action
       State.initial].
  rewrite orb_false_r. reflexivity.
Qed.

Lemma render_after_hook_witness :
  JS.truthy (accountId (Sample.facts "5" None true true true)) = true /\
  render
    (useEffect Sample.fromWei Sample.content
       (Sample.facts "5" None true true true) State.initial)
  = Some {| alertTitle := Some "No migration information available";
            alertText := Some EmptyString;
            lockShares := false |}.
Proof.
  split; [reflexivity |].
  rewrite (render_after_hook Sample.fromWei Sample.content
             (Sample.facts "5" None true true true) eq_refl).
  reflexivity.
Defined.

(** X15.  Snapshots without a participant (a null or empty [accountId])
    are skipped: a sequence of runs leaves the same state as the runs on
    its snapshots with a participant alone, so what was shown before the
    participant went away stays shown, unchanged. *)
Theorem no_participant_snapshots_skipped fromWei content fs st :
  reevaluate fromWei content fs st
  = reevaluate fromWei content
      (filter (fun f => JS.truthy (accountId f)) fs) st.
Proof.
  revert st. induction fs as [| f fs IH]; intro st.
  - reflexivity.
  - cbn [filter]. rewrite reevaluate_cons.
    destruct (JS.truthy (accountId f)) eqn:Hacc.
    + rewrite reevaluate_cons. apply IH.
    + rewrite (useEffect_falsy _ _ _ _ Hacc). apply IH.
Qed.

(** *** The deadline *)

Lemma not_x_of_decimal (c : ascii) :
  JS.digit_of 10 c <> None \/ ends_integer c = true ->
  (Ascii.eqb c "x" || Ascii.eqb c "X")%bool = false.
Proof.
  intros [H | H].
  - destruct (Ascii.eqb_spec c "x") as [-> | _];
      [exfalso; apply H; reflexivity |].
    destruct (Ascii.eqb_spec c "X") as [-> | _];
      [exfalso; apply H; reflexivity | reflexivity].
  - unfold ends_integer in H. destruct (JS.digit_of 10 c); [discriminate |].
    apply negb_true_iff, H.
Qed.

Lemma skip_ws_decimal (d : ascii) (rest : string) :
  JS.digit_of 10 d <> None ->
  JS.skip_ws (String d rest) = String d rest.
Proof.
  intro H.
  destruct d as [[] [] [] [] [] [] [] []];
    try (exfalso; apply H; reflexivity);
    destruct rest as [| c1 [| c2 rest]]; reflexivity.
Qed.

Lemma sign_decimal (d : ascii) (rest : string) :
  JS.digit_of 10 d <> None ->
  JS.sign (String d rest) = (false, String d rest).
Proof.
  intro H.
  destruct d as [[] [] [] [] [] [] [] []];
    try (exfalso; apply H; reflexivity); reflexivity.
Qed.

(** [parseInt] on a string that starts with a decimal digit and has no
    hexadecimal prefix reads the leading decimal digits. *)
Lemma parseInt_decimal (d : ascii) (rest : string) :
  JS.digit_of 10 d <> None ->
  (forall c0 r0, rest = String c0 r0 ->
                 (Ascii.eqb c0 "x" || Ascii.eqb c0 "X")%bool = false) ->
  JS.parseInt (String d rest)
  = (let '(m, cnt, _) := JS.digits 10 (String d rest) 0 0 in
     if (cnt =? 0)%Z then JS.NaN
     else if (m =? 0)%Z then S754_zero false
     else JS.of_Z m).
Proof.
  intros Hd Hx. unfold JS.parseInt.
  rewrite (skip_ws_decimal d rest Hd), (sign_decimal d rest Hd).
  assert (Hu : (match String d rest with
                | String "0" (String c0 r0) =>
                    if (Ascii.eqb c0 "x" || Ascii.eqb c0 "X")%bool
                    then (16%Z, r0) else (10%Z, String d rest)
                | _ => (10%Z, String d rest)
                end) = (10%Z, String d rest)).
  { destruct rest as [| c0 r0].
    - destruct d as [[] [] [] [] [] [] [] []]; reflexivity.
    - pose proof (Hx c0 r0 eq_refl) as E.
      destruct d as [[] [] [] [] [] [] [] []]; try reflexivity.
      rewrite E. reflexivity. }
  rewrite Hu. reflexivity.
Qed.

(** The digits read from a run of decimal digits followed by another
    character are those of the run. *)
Lemma digits_app (ds : string) (c : ascii) (r : string) (acc cnt : Z) :
  all_decimal ds = true -> JS.digit_of 10 c = None ->
  JS.digits 10 (ds ++ String c r) acc cnt
  = (fst (fst (JS.digits 10 ds acc cnt)),
     snd (fst (JS.digits 10 ds acc cnt)), String c r).
Proof.
  intros Hds Hc. revert acc cnt Hds.
  induction ds as [| d ds IH]; intros acc cnt Hds; simpl.
  - rewrite Hc. reflexivity.
  - simpl in Hds. destruct (JS.digit_of 10 d) as [v |]; [| discriminate].
    apply IH, Hds.
Qed.

(** X16.  The deadline is read with [parseInt]: text after its leading
    decimal digits is ignored, so a deadline such as "100px" leaves the
    same remaining-blocks suffix as "100". *)
Theorem deadline_trailing_text_ignored f ds c r :
  ds <> EmptyString -> all_decimal ds = true -> ends_integer c = true ->
  JS.parseInt (ds ++ String c r) = JS.parseInt ds /\
  getRemainingBlocksMessage (withDeadline (ds ++ String c r) f)
  = getRemainingBlocksMessage (withDeadline ds f).
Proof.
  intros Hne Hds Hc.
  assert (Hcd : JS.digit_of 10 c = None).
  { unfold ends_integer in Hc. destruct (JS.digit_of 10 c);
      [discriminate | reflexivity]. }
  assert (E : JS.parseInt (ds ++ String c r) = JS.parseInt ds).
  { destruct ds as [| d ds]; [congruence |].
    assert (Hd : JS.digit_of 10 d <> None).
    { simpl in Hds. destruct (JS.digit_of 10 d); [discriminate | discriminate]. }
    assert (Hds' : all_decimal ds = true).
    { simpl in Hds. destruct (JS.digit_of 10 d); [exact Hds | discriminate]. }
    change (String d ds ++ String c r) with (String d (ds ++ String c r)).
    rewrite !parseInt_decimal; try exact Hd.
    - change (String d (ds ++ String c r)) with (String d ds ++ String c r).
      rewrite (digits_app (String d ds) c r 0 0 Hds Hcd).
      destruct (JS.digits 10 (String d ds) 0 0) as [[m cnt] rest].
      reflexivity.
    - intros c0 r0 H0. apply not_x_of_decimal. left.
      subst ds. simpl in Hds'. destruct (JS.digit_of 10 c0); discriminate.
    - intros c0 r0 H0. apply not_x_of_decimal.
      destruct ds as [| d1 ds1]; simpl in H0.
      + injection H0 as <- _. right. exact Hc.
      + injection H0 as <- _. left. simpl in Hds'.
        destruct (JS.digit_of 10 d1); discriminate. }
  split; [exact E |].
  unfold getRemainingBlocksMessage. cbn [deadline block withDeadline].
  rewrite E. reflexivity.
Qed.

Lemma deadline_trailing_text_ignored_witness :
  ("100" <> EmptyString /\ all_decimal "100" = true
   /\ ends_integer "p" = true) /\
  getRemainingBlocksMessage
    (withDeadline ("100" ++ String "p" "x")
       (Sample.facts "5" None false false true))
  = nl ++ nl ++ "-50 blocks left for migration deadline".
Proof.
  split; [repeat split; discriminate |].
  rewrite (proj2 (deadline_trailing_text_ignored
                    (Sample.facts "5" None false false true) "100" "p" "x"
                    ltac:(discriminate) eq_refl eq_refl)).
  reflexivity.
Defined.

(** *** Where NaN comes from *)

Lemma iter_pos_preserves (A : Type) (g : A -> A) (P : A -> Prop) :
  (forall x, P x -> P (g x)) ->
  forall p x, P x -> P (iter_pos g p x).
Proof.
  intro Hg. induction p as [p IH | p IH |]; intros x Hx; simpl.
  - apply IH, IH, Hg, Hx.
  - apply IH, IH, Hx.
  - apply Hg, Hx.
Qed.

Lemma shr_1_nonneg (mrs : shr_record) :
  (0 <= shr_m mrs)%Z -> (0 <= shr_m (shr_1 mrs))%Z.
Proof.
  destruct mrs as [m r s]. simpl.
  destruct m as [| [p | p |] | [p | p |]]; simpl; lia.
Qed.

Lemma shr_fexp_nonneg (m e : Z) (l : location) :
  (0 <= m)%Z -> (0 <= shr_m (fst (shr_fexp JS.prec JS.emax m e l)))%Z.
Proof.
  intro Hm. unfold shr_fexp, shr.
  assert (H0 : (0 <= shr_m (shr_record_of_loc m l))%Z)
    by (destruct l as [| []]; exact Hm).
  destruct (fexp JS.prec JS.emax (Zdigits2 m + e) - e)%Z as [| p | p];
    simpl; try exact H0.
  apply (iter_pos_preserves _ shr_1 (fun x => (0 <= shr_m x)%Z));
    [apply shr_1_nonneg | exact H0].
Qed.

Lemma round_nearest_even_nonneg (m : Z) (l : location) :
  (0 <= m)%Z -> (0 <= round_nearest_even m l)%Z.
Proof.
  intro Hm. destruct l as [| []]; simpl; try lia.
  destruct (Z.even m); lia.
Qed.

Lemma binary_round_aux_not_NaN (sx : bool) (mx ex : Z) (lx : location) :
  (0 <= mx)%Z ->
  JS.isNaN (binary_round_aux JS.prec JS.emax sx mx ex lx) = false.
Proof.
  intro Hm. unfold binary_round_aux.
  pose proof (shr_fexp_nonneg mx ex lx Hm) as H1.
  destruct (shr_fexp JS.prec JS.emax mx ex lx) as [mrs' e']. simpl in H1.
  pose proof (shr_fexp_nonneg
                (round_nearest_even (shr_m mrs') (loc_of_shr_record mrs'))
                e' loc_Exact
                (round_nearest_even_nonneg _ _ H1)) as H2.
  destruct (shr_fexp JS.prec JS.emax _ e' loc_Exact) as [mrs'' e''].
  simpl in H2.
  destruct (shr_m mrs'') as [| p | p]; [reflexivity | | lia].
  destruct (e'' <=? JS.emax - JS.prec)%Z; reflexivity.
Qed.

Lemma binary_normalize_not_NaN (m e : Z) (szero : bool) :
  JS.isNaN (binary_normalize JS.prec JS.emax m e szero) = false.
Proof.
  unfold binary_normalize, binary_round.
  destruct m as [| p | p]; [reflexivity | |];
    destruct (shl_align p e _) as [mz ez];
    apply binary_round_aux_not_NaN; lia.
Qed.

(** Subtracting a finite number gives NaN only from NaN. *)
Lemma sub_finite_NaN (x b : JS.number) :
  finite_number b = true -> JS.isNaN (JS.sub x b) = JS.isNaN x.
Proof.
  unfold JS.sub.
  destruct b as [sb | sb | | sb mb eb]; try discriminate; intros _;
    destruct x as [s | s | | s m e]; try reflexivity;
    try (destruct s, sb; reflexivity).
  simpl. apply binary_normalize_not_NaN.
Qed.

(** The decimal string of an integer starts with a digit or a minus. *)
Lemma Z_to_string_head (z : Z) :
  exists ch rest, JS.Z_to_string z = String ch rest /\ ch <> "N"%char.
Proof.
  assert (Hu : forall u, exists ch rest,
               NilZero.string_of_uint u = String ch rest /\ ch <> "N"%char).
  { intro u. destruct u; simpl; eexists; eexists;
      (split; [reflexivity | discriminate]). }
  unfold JS.Z_to_string.
  destruct (Z.to_int z) as [u | u]; simpl.
  - apply Hu.
  - exists "-"%char. eexists. split; [reflexivity | discriminate].
Qed.

Lemma layout_head (ds : string) (k n : Z) :
  (exists ch rest, ds = String ch rest /\ ch <> "N"%char) ->
  exists ch rest, JS.layout ds k n = String ch rest /\ ch <> "N"%char.
Proof.
  intros (ch & rest & -> & Hch). unfold JS.layout.
  destruct ((k <=? n) && (n <=? 21))%Z.
  { simpl. eauto. }
  destruct ((0 <? n) && (n <=? 21))%Z eqn:E.
  { apply andb_true_iff in E. destruct E as [E _].
    apply Z.ltb_lt in E.
    destruct (Z.to_nat n) as [| n'] eqn:En; [lia |].
    simpl. eauto. }
  destruct ((-6 <? n) && (n <=? 0))%Z.
  { simpl. eexists. eexists. split; [reflexivity | discriminate]. }
  destruct (k =? 1)%Z; simpl; eauto.
Qed.

Lemma ToString_head (x : JS.number) :
  JS.isNaN x = false ->
  exists ch rest, JS.ToString x = String ch rest /\ ch <> "N"%char.
Proof.
  destruct x as [s | s | | s m e]; try discriminate; intros _;
    unfold JS.ToString.
  - eexists. eexists. split; [reflexivity | discriminate].
  - destruct s; eexists; eexists; (split; [reflexivity | discriminate]).
  - cbv zeta.
    match goal with
    | |- context [JS.shortest ?a ?b ?c ?d ?e ?f] =>
        destruct (JS.shortest a b c d e f) as [[d0 k] n]
    end.
    destruct (layout_head (JS.Z_to_string d0) k n (Z_to_string_head d0))
      as (ch & rest & -> & Hch).
    destruct s; cbn [String.append].
    + eexists. eexists. split; [reflexivity | discriminate].
    + eauto.
Qed.

(** X17.  With a finite block number, the remaining-blocks suffix says
    "NaN blocks left for migration deadline" exactly when [parseInt] finds
    no integer in the deadline. *)
Theorem remaining_count_NaN_iff f :
  finite_number (block f) = true ->
  (getRemainingBlocksMessage f
   = nl ++ nl ++ "NaN blocks left for migration deadline"
   <-> JS.parseInt (deadline f) = JS.NaN).
Proof.
  intro Hb. unfold getRemainingBlocksMessage. split.
  - intro H.
    destruct (JS.isNaN (JS.parseInt (deadline f))) eqn:E.
    + destruct (JS.parseInt (deadline f)); try discriminate. reflexivity.
    + rewrite <- (sub_finite_NaN _ _ Hb) in E.
      destruct (ToString_head _ E) as (ch & rest & Hs & Hch).
      rewrite Hs in H. simpl in H. injection H as H _.
      exfalso. apply Hch. exact H.
  - intros ->. reflexivity.
Qed.

Lemma remaining_count_NaN_iff_witness :
  finite_number (block (withDeadline "abc"
                          (Sample.facts "5" None false false true))) = true /\
  getRemainingBlocksMessage
    (withDeadline "abc" (Sample.facts "5" None false false true))
  = nl ++ nl ++ "NaN blocks left for migration deadline".
Proof.
  split; [reflexivity |].
  apply (proj2 (remaining_count_NaN_iff
                  (withDeadline "abc"
                     (Sample.facts "5" None false false true)) eq_refl)).
  reflexivity.
Defined.
